(** * my-slide-maker: the slide generator of [app.py]

    A shallow embedding of [create_slide_deck] (app.py, lines 31-195):
    the decoded JSON document, the Python built-ins the function relies on,
    the clean-up loops for graph nodes, graph edges and timeline events,
    and the calls made on the presentation and plotting libraries. *)

From Stdlib Require Import List ZArith NArith QArith Bool Ascii String Lia.
From Stdlib Require Import DecimalString.
Import ListNotations.

Set Warnings "-register-all".
Local Open Scope string_scope.
Local Open Scope list_scope.

(** ** Python strings

    A Python [str] is a sequence of Unicode code points: [len] counts code
    points and slicing cuts between them, so a string is modelled as the
    list of its code points rather than as a byte string. *)

Definition pystr := list N.

Definition lit (s : string) : pystr :=
  map N_of_ascii (list_ascii_of_string s).

Definition pystr_eq_dec : forall a b : pystr, {a = b} + {a <> b} :=
  list_eq_dec N.eq_dec.

Definition pystr_eqb (a b : pystr) : bool :=
  if pystr_eq_dec a b then true else false.

(** [sep.join(parts)] *)
Fixpoint join (sep : pystr) (parts : list pystr) : pystr :=
  match parts with
  | [] => []
  | [p] => p
  | p :: ps => p ++ sep ++ join sep ps
  end.

(** [str(i)] for a Python [int]. *)
Definition int_str (z : Z) : pystr :=
  lit (NilZero.string_of_int (Z.to_int z)).

(** ** Exceptions and fallible computations *)

(** An exception raised inside a library call; [str(ex)] is its description. *)
Record lib_exn := LibExn { descr : pystr }.

Inductive exn :=
| IndexError
| AttributeError
| TypeError
| LibraryError (ex : lib_exn).

Inductive result (A : Type) :=
| Ok (a : A)
| Raise (e : exn).
Arguments Ok {A} a.
Arguments Raise {A} e.

Definition bind {A B} (r : result A) (k : A -> result B) : result B :=
  match r with
  | Ok a => k a
  | Raise e => Raise e
  end.

Notation "x <- r ;; k" := (bind r (fun x => k))
  (at level 61, r at next level, right associativity).

Definition returns {A} (r : result A) : Prop := exists a, r = Ok a.

(** ** The interpreter's built-ins that are not part of this repository

    [json.loads] turns a number with a fraction or an exponent into a
    [float]; how a float prints and how a string is quoted by [repr] are
    taken from the interpreter. *)

Class PyRuntime := {
  float : Type;
  float_nonzero : float -> bool;   (* bool(f) *)
  float_repr : float -> pystr;     (* repr(f) == str(f) *)
  str_repr : pystr -> pystr        (* repr(s) *)
}.

Section Values.

Context {RT : PyRuntime}.

(** ** Decoded JSON

    The value returned by [json.loads]. A [dict] keeps its items in
    insertion order, which is the order [values()] iterates in. *)

Inductive json :=
| JNull
| JBool (b : bool)
| JInt (z : Z)
| JFloat (f : float)
| JStr (s : pystr)
| JArr (items : list json)
| JObj (items : list (pystr * json)).

Definition pydict := list (pystr * json).

(** [repr(v)] *)
Fixpoint py_repr (v : json) : pystr :=
  match v with
  | JNull => lit "None"
  | JBool true => lit "True"
  | JBool false => lit "False"
  | JInt z => int_str z
  | JFloat f => float_repr f
  | JStr s => str_repr s
  | JArr items =>
      lit "[" ++ join (lit ", ") (map py_repr items) ++ lit "]"
  | JObj items =>
      lit "{" ++
      join (lit ", ")
        (map (fun kv => str_repr (fst kv) ++ lit ": " ++ py_repr (snd kv))
             items) ++
      lit "}"
  end.

(** [str(v)]: a string is itself, everything else prints as its [repr]. *)
Definition py_str (v : json) : pystr :=
  match v with
  | JStr s => s
  | _ => py_repr v
  end.

(** Truth value of [v], as tested by [if], [not] and [or]. *)
Definition truthy (v : json) : bool :=
  match v with
  | JNull => false
  | JBool b => b
  | JInt z => negb (z =? 0)%Z
  | JFloat f => float_nonzero f
  | JStr s => match s with [] => false | _ => true end
  | JArr items => match items with [] => false | _ => true end
  | JObj items => match items with [] => false | _ => true end
  end.

(** [a or b] *)
Definition py_or (a b : json) : json := if truthy a then a else b.

(** [d.get(key)] and [d.get(key, default)] on a [dict]. *)
Fixpoint lookup (key : pystr) (d : pydict) : option json :=
  match d with
  | [] => None
  | (k, v) :: rest => if pystr_eqb k key then Some v else lookup key rest
  end.

Definition dict_get (d : pydict) (key : string) (default : json) : json :=
  match lookup (lit key) d with
  | Some v => v
  | None => default
  end.

(** [obj.get(key, default)] on an arbitrary value: only a [dict] has the
    attribute [get]. *)
Definition py_get (obj : json) (key : string) (default : json) : result json :=
  match obj with
  | JObj d => Ok (dict_get d key default)
  | _ => Raise AttributeError
  end.

(** [list(d.values())] *)
Definition values (d : pydict) : list json := map snd d.

(** [for x in v]: the items a [for] loop visits, or [TypeError] when the
    value is not iterable. *)
Definition py_iter (v : json) : result (list json) :=
  match v with
  | JArr items => Ok items
  | JObj d => Ok (map (fun kv => JStr (fst kv)) d)
  | JStr s => Ok (map (fun c => JStr [c]) s)
  | _ => Raise TypeError
  end.

End Values.

(** ** The graph library (networkx)

    An undirected [nx.Graph] over string identifiers: the adjacency
    dictionary, node to neighbours, both in insertion order. The keys are
    the nodes of the graph. *)

Definition Graph := list (pystr * list pystr).

Definition empty_graph : Graph := [].

Definition has_node (G : Graph) (n : pystr) : bool :=
  existsb (fun entry => pystr_eqb (fst entry) n) G.

Definition add_node (G : Graph) (n : pystr) : Graph :=
  if has_node G n then G else G ++ [(n, [])].

Definition add_neighbour (G : Graph) (u v : pystr) : Graph :=
  map (fun entry =>
         if pystr_eqb (fst entry) u
         then (fst entry,
               if existsb (pystr_eqb v) (snd entry)
               then snd entry else snd entry ++ [v])
         else entry) G.

(** [G.add_edge(u, v)]: both endpoints become nodes when they are not yet. *)
Definition add_edge (G : Graph) (e : pystr * pystr) : Graph :=
  let (u, v) := e in
  add_neighbour (add_neighbour (add_node (add_node G u) v) u v) v u.

Definition add_nodes_from (G : Graph) (nodes : list pystr) : Graph :=
  fold_left add_node nodes G.

Definition add_edges_from (G : Graph) (edges : list (pystr * pystr)) : Graph :=
  fold_left add_edge edges G.

Definition nodes_of (G : Graph) : list pystr := map fst G.

Definition number_of_nodes (G : Graph) : nat := List.length G.

(** ** The presentation and plotting libraries (python-pptx, matplotlib,
    networkx drawing)

    The libraries are not part of this repository. What matters to the
    code about a call is whether it raises: the layout and the three
    drawing calls inside the [try] of lines 121-130, [ax.bar], whose
    arguments are not validated by the code, and the assignment of a value
    that is not a string to the text of a text frame. A call that raises
    leaves nothing on the axes. Creating a figure or a text box, writing a
    text on the axes, [savefig] into a memory stream, [add_picture] and
    [prs.save] are taken to succeed.

    [spring_layout] is called with [k=0.8, seed=42]; [jp_font] is the name
    of the font registered when the module was loaded (lines 12-28), if the
    font file was there. *)

Class Libraries {RT : PyRuntime} := {
  layout : Type;
  spring_layout : Graph -> lib_exn + layout;
  draw_networkx_nodes_raises : Graph -> layout -> option lib_exn;
  draw_networkx_edges_raises : Graph -> layout -> option lib_exn;
  draw_networkx_labels_raises : Graph -> layout -> pystr -> option lib_exn;
  jp_font : option pystr;
  bar_raises : json -> json -> option lib_exn;  (* ax.bar(labels, values) *)
  text_rejected : json -> lib_exn               (* tf.text = a non-string *)
}.

Section Deck.

Context {RT : PyRuntime} {LB : Libraries}.

(** ** Cleaning of nodes and edges (lines 87-108) *)

(** One turn of the loop of lines 91-98: the identifiers appended to
    [clean_nodes] for the entry [n]. *)
Definition clean_node (n : json) : result (list pystr) :=
  match n with
  | JStr s => Ok [s]
  | JArr (x :: _) => Ok [py_str x]
  | JObj d =>
      match values d with
      | v :: _ => Ok [py_str v]
      | [] => Raise IndexError            (* list(n.values())[0] *)
      end
  | _ => Ok []
  end.

Fixpoint clean_nodes (raw_nodes : list json) : result (list pystr) :=
  match raw_nodes with
  | [] => Ok []
  | n :: rest =>
      here <- clean_node n ;;
      more <- clean_nodes rest ;;
      Ok (here ++ more)
  end.

(** One turn of the loop of lines 101-108. *)
Definition clean_edge (e : json) : list (pystr * pystr) :=
  match e with
  | JArr (a :: b :: _) => [(py_str a, py_str b)]
  | JObj d =>
      match values d with
      | a :: b :: _ => [(py_str a, py_str b)]
      | _ => []
      end
  | _ => []
  end.

Fixpoint clean_edges (raw_edges : list json) : list (pystr * pystr) :=
  match raw_edges with
  | [] => []
  | e :: rest => clean_edge e ++ clean_edges rest
  end.

(** ** Timeline events (lines 150-162) *)

(** Line 157. [e.get(k)] is [None] when the key is absent. *)
Definition event_date (e : pydict) : pystr :=
  py_str
    (py_or (py_or (py_or (py_or (dict_get e "date" JNull)
                                (dict_get e "year" JNull))
                         (dict_get e "time" JNull))
                  (dict_get e "Date" JNull))
           (JStr (lit "N/A"))).

(** Line 159. *)
Definition event_label (e : pydict) : pystr :=
  py_str
    (py_or (py_or (py_or (py_or (dict_get e "label" JNull)
                                (dict_get e "title" JNull))
                         (dict_get e "event" JNull))
                  (dict_get e "Label" JNull))
           (JStr (lit "No Label"))).

(** The loop of lines 154-162: the lists [dates] and [labels]. *)
Fixpoint read_events (events : list json) : list pystr * list pystr :=
  match events with
  | [] => ([], [])
  | e :: rest =>
      let (dates, labels) := read_events rest in
      match e with
      | JObj d => (event_date d :: dates, event_label d :: labels)
      | _ => (dates, labels)
      end
  end.

(** Line 176: [label[:10] + '...' if len(label) > 10 else label]. *)
Definition display_label (label : pystr) : pystr :=
  if (10 <? List.length label)%nat then firstn 10 label ++ lit "..." else label.

(** ** Figures

    A figure is the sequence of calls made on its axes; [savefig] turns it
    into the picture placed on the slide. Keyword arguments are kept as
    written. *)

Inductive kwval :=
| KS (s : string)
| KQ (q : Q).

Definition kwargs := list (string * kwval).

Inductive ax_call :=
| AxText (x y : Q) (s : pystr) (kw : kwargs)
| AxBar (labels values : json) (kw : kwargs)
| AxGrid (kw : kwargs)
| AxHlines (y xmin xmax : Q) (kw : kwargs)
| AxPlot (xs ys : list Q) (fmt : string) (kw : kwargs)
| AxSetTitle (label : json) (kw : kwargs)
| AxAxisOff
| AxSetYlim (bottom top : Q)
| DrawNodes (G : Graph) (pos : layout) (kw : kwargs)
| DrawEdges (G : Graph) (pos : layout) (kw : kwargs)
| DrawLabels (G : Graph) (pos : layout) (font_family : pystr) (kw : kwargs).

Record figure := Figure {
  figsize : Q * Q;
  calls : list ax_call
}.

(** A drawing step: the calls it adds to the axes and, when it stops on an
    exception, the exception. *)
Definition plot (A : Type) : Type := list ax_call * (lib_exn + A).

Definition pret {A} (a : A) : plot A := ([], inr a).

Definition pbind {A B} (c : plot A) (k : A -> plot B) : plot B :=
  match c with
  | (drawn, inl ex) => (drawn, inl ex)
  | (drawn, inr a) => let (more, r) := k a in (drawn ++ more, r)
  end.

Notation "x <~ c ;; k" := (pbind c (fun x => k))
  (at level 61, c at next level, right associativity).

(** A library call that either raises or leaves its drawing on the axes. *)
Definition draws (raised : option lib_exn) (call : ax_call) : plot unit :=
  match raised with
  | Some ex => ([], inl ex)
  | None => ([call], inr tt)
  end.

Definition computes {A} (r : lib_exn + A) : plot A := ([], r).

(** The body of the [try] of lines 122-127. *)
Definition layout_and_draw (G : Graph) : plot unit :=
  pos <~ computes (spring_layout G) ;;
  _ <~ draws (draw_networkx_nodes_raises G pos)
         (DrawNodes G pos [("node_size", KQ 2000); ("node_color", KS "#E8F5E9");
                           ("edgecolors", KS "#2E7D32")]) ;;
  _ <~ draws (draw_networkx_edges_raises G pos)
         (DrawEdges G pos [("width", KQ 2); ("edge_color", KS "#90A4AE")]) ;;
  let f_family := match jp_font with
                  | Some name => name
                  | None => lit "sans-serif"
                  end in
  draws (draw_networkx_labels_raises G pos f_family)
        (DrawLabels G pos f_family [("font_size", KQ 11)]).

Definition centered : kwargs := [("ha", KS "center"); ("va", KS "center")].

(** Lines 121-130: [try: ... except Exception as ex: ax.text(...)]. *)
Definition try_layout_and_draw (G : Graph) : list ax_call :=
  match layout_and_draw G with
  | (drawn, inr _) => drawn
  | (drawn, inl ex) =>
      drawn ++ [AxText 0.5 0.5 (lit "Graph Error: " ++ descr ex) centered]
  end.

(** Lines 116-130: what is drawn for the graph [G]. *)
Definition graph_body (G : Graph) : list ax_call :=
  if (number_of_nodes G =? 0)%nat
  then [AxText 0.5 0.5 (lit "No Data for Graph") centered]
  else try_layout_and_draw G.

(** Lines 110-114. *)
Definition build_graph (clean_nodes : list pystr)
                       (clean_edges : list (pystr * pystr)) : Graph :=
  let G := empty_graph in
  let G := match clean_nodes with
           | [] => G
           | _ => add_nodes_from G clean_nodes
           end in
  match clean_edges with
  | [] => G
  | _ => add_edges_from G clean_edges
  end.

(** Lines 84-114: the graph built from the slide's content. *)
Definition network_graph_of (content : json) : result Graph :=
  raw_nodes <- py_get content "nodes" (JArr []) ;;
  raw_edges <- py_get content "edges" (JArr []) ;;
  ns <- py_iter raw_nodes ;;
  cleaned_nodes <- clean_nodes ns ;;
  es <- py_iter raw_edges ;;
  let cleaned_edges := clean_edges es in
  Ok (build_graph cleaned_nodes cleaned_edges).

Definition concept_map_caption : ax_call :=
  AxSetTitle (JStr (lit "Concept Map"))
    [("fontsize", KQ 14); ("loc", KS "left"); ("color", KS "gray")].

(** Lines 80-133: the figure of a [network_graph] slide. *)
Definition network_graph_figure (content : json) : result figure :=
  G <- network_graph_of content ;;
  Ok (Figure (8, 5) (graph_body G ++ [AxAxisOff; concept_map_caption])).

(** Lines 171-177: the two texts of every event, at x = i, i+1, ... *)
Fixpoint event_texts (i : nat) (events : list (pystr * pystr)) : list ax_call :=
  match events with
  | [] => []
  | (date, label) :: rest =>
      let x := inject_Z (Z.of_nat i) in
      AxText x 1.15 date
        [("ha", KS "center"); ("fontsize", KQ 10); ("color", KS "gray")] ::
      AxText x 0.85 (display_label label)
        [("ha", KS "center"); ("va", KS "top"); ("fontsize", KQ 12);
         ("fontweight", KS "bold")] ::
      event_texts (S i) rest
  end.

(** Lines 165-183. *)
Definition timeline_body (dates labels : list pystr) : list ax_call :=
  match dates with
  | [] => [AxText 0.5 0.5 (lit "No Timeline Data") centered; AxAxisOff]
  | _ =>
      let n := List.length dates in
      [AxHlines 1 0 (inject_Z (Z.of_nat n - 1))
         [("color", KS "#FF7043"); ("linewidth", KQ 3)];
       AxPlot (map (fun i => inject_Z (Z.of_nat i)) (seq 0 n)) (repeat 1 n) "o"
         [("markersize", KQ 10); ("color", KS "#FF7043")]] ++
      event_texts 0 (combine dates labels) ++
      [AxAxisOff; AxSetYlim 0.5 1.5]
  end.

Definition is_list (v : json) : bool :=
  match v with
  | JArr _ => true
  | _ => false
  end.

(** Lines 143-183: the figure of a [timeline] slide. *)
Definition timeline_figure (content : json) : result figure :=
  events <- py_get content "events" (JArr []) ;;
  let events := if negb (truthy events) && is_list content
                then content else events in
  items <- py_iter events ;;
  let (dates, labels) := read_events items in
  Ok (Figure (8, 3) (timeline_body dates labels)).

(** Lines 62-69: the figure of a [bar_chart] slide. *)
Definition bar_chart_figure (slide_data content : json) : result figure :=
  labels <- py_get content "labels" (JArr []) ;;
  values <- py_get content "values" (JArr []) ;;
  match bar_raises labels values with
  | Some ex => Raise (LibraryError ex)
  | None =>
      title <- py_get slide_data "title" JNull ;;
      Ok (Figure (8, 4.5)
            [AxBar labels values [("color", KS "#4A90E2"); ("alpha", KQ 0.8)];
             AxSetTitle title [("fontsize", KQ 14)];
             AxGrid [("axis", KS "y"); ("linestyle", KS "--");
                     ("alpha", KQ 0.5)]])
  end.

(** ** Slides (the presentation library)

    Positions and sizes are in inches, font sizes in points. A text frame
    records the text assigned to it, the font given to its first
    paragraph and the paragraphs added afterwards. *)

Record paragraph := Paragraph {
  p_text : pystr;
  p_font_size : Z;
  p_space_after : Z
}.

Record text_frame := TextFrame {
  tf_text : pystr;
  tf_first_font : option (Z * bool);     (* size, bold *)
  tf_word_wrap : bool;
  tf_added : list paragraph
}.

Inductive shape :=
| TextBox (left top width height : Q) (tf : text_frame)
| Picture (image : figure) (left top width : Q).

Definition slide := list shape.

(** [tf.text = v]: the library accepts a string only. *)
Definition set_text (v : json) : result pystr :=
  match v with
  | JStr s => Ok s
  | _ => Raise (LibraryError (text_rejected v))
  end.

(** Lines 40-44. *)
Definition title_box (title : pystr) : shape :=
  TextBox 0.5 0.2 9 1 (TextFrame title (Some (28%Z, true)) false []).

(** Lines 55-58; the bullet is U+2022. *)
Definition bullet_paragraph (item : json) : paragraph :=
  Paragraph ([8226%N; 32%N] ++ py_str item) 18 10.

(** [sType == 'name'] *)
Definition is_type (sType : json) (name : string) : bool :=
  match sType with
  | JStr s => pystr_eqb s (lit name)
  | _ => false
  end.

(** One turn of the loop of lines 34-189: the slide added for
    [slide_data]. The exceptions are those of reading the descriptor and
    its content, of the title assignment and of [ax.bar]; the assignment
    of a paragraph's text (line 56) and [savefig] (lines 73, 136, 186) are
    taken to succeed, so this is the slide that is added when they do. *)
Definition render_slide (slide_data : json) : result slide :=
  title <- py_get slide_data "title" (JStr (lit "No Title")) ;;
  title <- set_text title ;;
  sType <- py_get slide_data "type" JNull ;;
  content <- py_get slide_data "content" (JObj []) ;;
  if is_type sType "bullet_points" then
    points <- py_get content "points" (JArr []) ;;
    items <- py_iter points ;;
    Ok [title_box title;
        TextBox 0.5 1.5 9 5
          (TextFrame [] None true (map bullet_paragraph items))]
  else if is_type sType "bar_chart" then
    fig <- bar_chart_figure slide_data content ;;
    Ok [title_box title; Picture fig 1 1.5 8]
  else if is_type sType "network_graph" then
    fig <- network_graph_figure content ;;
    Ok [title_box title; Picture fig 1 1.5 8]
  else if is_type sType "timeline" then
    fig <- timeline_figure content ;;
    Ok [title_box title; Picture fig 1 2.5 8]
  else
    Ok [title_box title].

Fixpoint render_slides (descriptors : list json) : result (list slide) :=
  match descriptors with
  | [] => Ok []
  | slide_data :: rest =>
      page <- render_slide slide_data ;;
      pages <- render_slides rest ;;
      Ok (page :: pages)
  end.

(** Lines 31-195: the slides of the presentation that is saved and
    returned. *)
Definition create_slide_deck (json_data : json) : result (list slide) :=
  descriptors <- py_iter json_data ;;
  render_slides descriptors.

End Deck.

(** * Vocabulary of the statements *)

(** ** The reading of the specification for timeline events

    The first key, in the given priority order, that is present in the
    event with a truthy value decides; when there is none the sentinel is
    used. *)

Section EventSpec.

Context {RT : PyRuntime}.

Fixpoint first_truthy (keys : list string) (e : pydict) : option json :=
  match keys with
  | [] => None
  | k :: ks =>
      match lookup (lit k) e with
      | Some v => if truthy v then Some v else first_truthy ks e
      | None => first_truthy ks e
      end
  end.

Definition extract (keys : list string) (sentinel : string) (e : pydict)
  : pystr :=
  match first_truthy keys e with
  | Some v => py_str v
  | None => lit sentinel
  end.

End EventSpec.

Definition date_keys : list string := ["date"; "year"; "time"; "Date"].
Definition label_keys : list string := ["label"; "title"; "event"; "Label"].

Definition endpoint (edges : list (pystr * pystr)) (n : pystr) : Prop :=
  exists u v, In (u, v) edges /\ (n = u \/ n = v).

(** [list(G.adj[x])]: the neighbours of [x], empty when [x] is no node. *)
Definition neighbours (G : Graph) (x : pystr) : list pystr :=
  flat_map (fun entry => if pystr_eqb (fst entry) x then snd entry else []) G.

(** [x] and [w] are the two ends of one of the edges, in either order. *)
Definition joined (edges : list (pystr * pystr)) (x w : pystr) : Prop :=
  exists u v, In (u, v) edges /\ ((x = u /\ w = v) \/ (x = v /\ w = u)).

Section Vocabulary.

Context {RT : PyRuntime} {LB : Libraries}.

Definition s_ (s : string) : json := JStr (lit s).

(** The node list of the specification's example. *)
Definition example_nodes : list json :=
  [s_ "A"; JArr [s_ "B"]; JObj [(lit "x", s_ "C")]; JObj []; JArr []; JInt 5].

Definition example_edges : list json :=
  [JArr [s_ "A"; s_ "B"];
   JObj [(lit "s", s_ "A"); (lit "t", s_ "C")];
   JArr [s_ "X"]].

(** The descriptor [{"title": title, "type": type, "content": content}]. *)
Definition descriptor (title : json) (type : string) (content : json) : json :=
  JObj [(lit "title", title); (lit "type", s_ type); (lit "content", content)].

Definition picture_page (title : pystr) (fig : figure) (top : Q) : slide :=
  [title_box title; Picture fig 1 top 8].

Definition slide_types : list string :=
  ["bullet_points"; "bar_chart"; "network_graph"; "timeline"].

Definition graph_error_text (ex : lib_exn) : ax_call :=
  AxText 0.5 0.5 (lit "Graph Error: " ++ descr ex) centered.

Definition no_data_text : ax_call :=
  AxText 0.5 0.5 (lit "No Data for Graph") centered.

End Vocabulary.

(** ** Concrete runs

    A runtime for documents without floats, plotting libraries that never
    raise, and plotting libraries whose layout always raises. *)

(** [repr(s)] for a string of code points below 256: the string is put
    between single quotes, or between double quotes when it holds a single
    quote and no double quote; a backslash and the quote in use are
    escaped, tab, newline and carriage return are written with their
    letters, and the code points that are not printable with two hex
    digits. A code point from 256 on is written as it is, which is what
    Python does when it is printable. *)
Definition hex_digit (n : N) : N :=
  if (n <? 10)%N then (48 + n)%N else (87 + n)%N.

Definition escape_char (quote c : N) : pystr :=
  if (c =? 92)%N then [92; 92]%N
  else if (c =? quote)%N then [92%N; quote]
  else if (c =? 9)%N then [92; 116]%N
  else if (c =? 10)%N then [92; 110]%N
  else if (c =? 13)%N then [92; 114]%N
  else if ((c <? 32) || ((127 <=? c) && (c <=? 160)) || (c =? 173))%N
       then [92%N; 120%N; hex_digit (c / 16); hex_digit (c mod 16)]
       else [c].

Definition latin1_repr (s : pystr) : pystr :=
  let quote := if existsb (N.eqb 39) s && negb (existsb (N.eqb 34) s)
               then 34%N else 39%N in
  quote :: flat_map (escape_char quote) s ++ [quote].

Definition plain_runtime : PyRuntime := {|
  float := Empty_set;
  float_nonzero := fun f => match f with end;
  float_repr := fun f => match f with end;
  str_repr := latin1_repr
|}.

Definition quiet_libs : @Libraries plain_runtime := {|
  layout := unit;
  spring_layout := fun _ => inr tt;
  draw_networkx_nodes_raises := fun _ _ => None;
  draw_networkx_edges_raises := fun _ _ => None;
  draw_networkx_labels_raises := fun _ _ _ => None;
  jp_font := None;
  bar_raises := fun _ _ => None;
  text_rejected := fun _ => LibExn (lit "expected a string")
|}.

Definition layout_failure : lib_exn := LibExn (lit "layout did not converge").

Definition failing_libs : @Libraries plain_runtime := {|
  layout := unit;
  spring_layout := fun _ => inl layout_failure;
  draw_networkx_nodes_raises := fun _ _ => None;
  draw_networkx_edges_raises := fun _ _ => None;
  draw_networkx_labels_raises := fun _ _ _ => None;
  jp_font := None;
  bar_raises := fun _ _ => None;
  text_rejected := fun _ => LibExn (lit "expected a string")
|}.

Section Runs.

Let RT := plain_runtime.
Existing Instance RT.

Definition one_node_content : json := JObj [(lit "nodes", JArr [s_ "A"])].

Definition edges_only : pydict :=
  [(lit "nodes", JArr []); (lit "edges", JArr [JArr [s_ "A"; s_ "B"]])].

Definition quote_slide : pydict :=
  [(lit "title", s_ "Intro"); (lit "type", s_ "quote")].

Definition two_slide_deck : list json :=
  [descriptor (s_ "Agenda") "bullet_points"
              (JObj [(lit "points", JArr [s_ "one"; s_ "two"])]);
   JObj quote_slide].

End Runs.

(** ** Further vocabulary: shapes of values and of figures *)

Section Shapes.

Context {RT : PyRuntime} {LB : Libraries}.

(** [isinstance(v, dict)] *)
Definition is_dict (v : json) : bool :=
  match v with
  | JObj _ => true
  | _ => false
  end.

(** The values a [for] loop cannot visit: null, booleans and numbers. *)
Definition scalar (v : json) : bool :=
  match v with
  | JNull | JBool _ | JInt _ | JFloat _ => true
  | _ => false
  end.

(** The edge entry [[u, v]]. *)
Definition pair_entry (e : pystr * pystr) : json :=
  JArr [JStr (fst e); JStr (snd e)].

Definition is_draw_call (c : ax_call) : bool :=
  match c with
  | DrawNodes _ _ _ | DrawEdges _ _ _ | DrawLabels _ _ _ _ => true
  | _ => false
  end.


Definition date_text (x : Q) (date : pystr) : ax_call :=
  AxText x 1.15 date
    [("ha", KS "center"); ("fontsize", KQ 10); ("color", KS "gray")].

Definition label_text (x : Q) (shown : pystr) : ax_call :=
  AxText x 0.85 shown
    [("ha", KS "center"); ("va", KS "top"); ("fontsize", KQ 12);
     ("fontweight", KS "bold")].

(** The font family of line 126. *)
Definition label_font : pystr :=
  match jp_font with
  | Some name => name
  | None => lit "sans-serif"
  end.

Definition is_library_error (e : exn) : bool :=
  match e with
  | LibraryError _ => true
  | _ => false
  end.

(** The three drawings of lines 123-127, in the order they are made. *)
Definition graph_drawings (G : Graph) (pos : layout) : list ax_call :=
  [DrawNodes G pos [("node_size", KQ 2000); ("node_color", KS "#E8F5E9");
                    ("edgecolors", KS "#2E7D32")];
   DrawEdges G pos [("width", KQ 2); ("edge_color", KS "#90A4AE")];
   DrawLabels G pos label_font [("font_size", KQ 11)]].

(** The bullet of line 56, U+2022 and a space. *)
Definition bullet : pystr := [8226%N; 32%N].

(** A computation that raises no library error. *)
Definition own_error {A} (r : result A) : Prop :=
  forall e, r = Raise e -> is_library_error e = false.

End Shapes.

(** ** Further concrete runs *)

Definition bar_failure : lib_exn :=
  LibExn (lit "shape mismatch: objects cannot be broadcast to a single shape").

(** The lengths of labels and values fit when they are equal or one of
    them is 1. *)
Definition lengths_fit (n m : nat) : bool :=
  ((n =? m) || (n =? 1) || (m =? 1))%nat.

(** Plotting libraries whose bar drawing raises on a list of labels and a
    list of values whose lengths do not fit. *)
Definition shape_checking_libs : @Libraries plain_runtime := {|
  layout := unit;
  spring_layout := fun _ => inr tt;
  draw_networkx_nodes_raises := fun _ _ => None;
  draw_networkx_edges_raises := fun _ _ => None;
  draw_networkx_labels_raises := fun _ _ _ => None;
  jp_font := None;
  bar_raises := fun labels values =>
    match labels, values with
    | JArr ls, JArr vs =>
        if lengths_fit (List.length ls) (List.length vs)
        then None else Some bar_failure
    | _, _ => None
    end;
  text_rejected := fun _ => LibExn (lit "expected a string")
|}.

Section MoreRuns.

Let RT := plain_runtime.
Existing Instance RT.

Definition mixed_entries : list json := [s_ "A"; JArr []; JInt 5].

Definition one_node_graph : Graph := [(lit "A", [])].




Definition uneven_bars : pydict :=
  [(lit "title", s_ "Sales"); (lit "type", s_ "bar_chart");
   (lit "content",
    JObj [(lit "labels", JArr [s_ "a"; s_ "b"]);
          (lit "values", JArr [JInt 1; JInt 2; JInt 3])])].

Definition string_points : pydict := [(lit "points", s_ "hi")].


End MoreRuns.

Section LooseRuns.

Let RT := plain_runtime.
Existing Instance RT.

Definition nodes_as_object : pydict :=
  [(lit "nodes", JObj [(lit "A", JInt 1); (lit "B", JInt 2)])].

Definition dated_events : pydict :=
  [(lit "events", JArr [JObj [(lit "date", s_ "2020")]])].

End LooseRuns.

(** * Properties *)

Section NormalizerProperties.

Context {RT : PyRuntime}.

Lemma clean_nodes_app (l1 l2 : list json) :
  clean_nodes (l1 ++ l2) =
  (a <- clean_nodes l1 ;; b <- clean_nodes l2 ;; Ok (a ++ b)).
Proof.
  induction l1 as [|n l1 IH]; simpl.
  - destruct (clean_nodes l2); reflexivity.
  - destruct (clean_node n) as [here|e]; simpl; [|reflexivity].
    rewrite IH.
    destruct (clean_nodes l1) as [a|e]; simpl; [|reflexivity].
    destruct (clean_nodes l2) as [b|e]; simpl; [|reflexivity].
    now rewrite app_assoc.
Qed.

Lemma clean_edges_app (l1 l2 : list json) :
  clean_edges (l1 ++ l2) = clean_edges l1 ++ clean_edges l2.
Proof.
  induction l1 as [|e l1 IH]; simpl; [reflexivity|].
  now rewrite IH, app_assoc.
Qed.

(** An empty mapping is the only entry shape on which the node loop stops. *)
Lemma clean_node_returns (n : json) :
  n <> JObj [] -> returns (clean_node n).
Proof.
  intros Hn. unfold returns.
  destruct n as [| | | | |items|d]; simpl; eauto.
  - destruct items; eauto.
  - destruct d as [|[k v] d]; [congruence|simpl; eauto].
Qed.

Lemma clean_nodes_returns (raw : list json) :
  ~ In (JObj []) raw -> returns (clean_nodes raw).
Proof.
  induction raw as [|n raw IH]; intros Hin; simpl.
  - eexists; reflexivity.
  - destruct (clean_node_returns n) as [here ->].
    { intros ->. apply Hin. now left. }
    destruct IH as [more ->].
    { intros H. apply Hin. now right. }
    eexists; reflexivity.
Qed.

(** C1. The node loop handles a plain string, a non-empty sequence, a
    non-empty mapping, an empty sequence, a number and null as the
    specification says, but it does not skip an empty mapping: taking the
    first of its values raises IndexError, and so does the whole example
    list of the specification, which was to give A, B, C. Without the
    empty mapping the example gives A, B, C. *)
Theorem clean_nodes_example_raises :
  clean_nodes example_nodes = Raise IndexError /\
  clean_node (JObj []) = Raise IndexError /\
  clean_nodes [s_ "A"; JArr [s_ "B"]; JObj [(lit "x", s_ "C")]; JArr []; JInt 5]
    = Ok [lit "A"; lit "B"; lit "C"] /\
  (forall s, clean_node (JStr s) = Ok [s]) /\
  (forall x more, clean_node (JArr (x :: more)) = Ok [py_str x]) /\
  (forall k v more, clean_node (JObj ((k, v) :: more)) = Ok [py_str v]) /\
  clean_node (JArr []) = Ok [] /\
  (forall z, clean_node (JInt z) = Ok []) /\
  (forall f, clean_node (JFloat f) = Ok []) /\
  (forall b, clean_node (JBool b) = Ok []) /\
  clean_node JNull = Ok [].
Proof.
  repeat split; reflexivity.
Qed.

(** C2. Normalization of a node list does raise: whatever comes before
    and after it, an empty mapping among the entries makes the node loop
    raise (IndexError at the entry itself unless an earlier empty mapping
    already raised). *)
Theorem clean_nodes_raises_on_empty_mapping :
  forall before after : list json,
    clean_nodes (before ++ JObj [] :: after) = Raise IndexError.
Proof.
  intros before after.
  induction before as [|n before IH]; simpl; [reflexivity|].
  destruct n as [| | | | |items|d]; simpl; try (rewrite IH; reflexivity).
  - destruct items; simpl; rewrite IH; reflexivity.
  - destruct d as [|[k v] d]; simpl; [reflexivity|].
    rewrite IH; reflexivity.
Qed.

Ltac case_truthy :=
  repeat match goal with
         | |- context [truthy ?v] =>
             first [ is_var v;
                     let E := fresh "E" in
                     destruct (truthy v) eqn:E; rewrite ?E
                   | lazymatch v with JNull => idtac end;
                     change (truthy JNull) with false ];
             cbv iota
         end.

Lemma or_chain_first_truthy (keys4 : string * string * string * string)
      (sentinel : string) (e : pydict) :
  let '(k1, k2, k3, k4) := keys4 in
  py_str
    (py_or (py_or (py_or (py_or (dict_get e k1 JNull) (dict_get e k2 JNull))
                         (dict_get e k3 JNull))
                  (dict_get e k4 JNull))
           (JStr (lit sentinel)))
  = extract [k1; k2; k3; k4] sentinel e.
Proof.
  destruct keys4 as [[[k1 k2] k3] k4].
  unfold extract, first_truthy, dict_get, py_or.
  destruct (lookup (lit k1) e) as [v1|];
  destruct (lookup (lit k2) e) as [v2|];
  destruct (lookup (lit k3) e) as [v3|];
  destruct (lookup (lit k4) e) as [v4|];
  case_truthy; first [reflexivity | congruence].
Qed.

(** C4. The date of an event is the stringified value of the first key
    among date, year, time, Date that is present with a truthy value, and
    "N/A" when there is none; likewise the label with label, title, event,
    Label and "No Label". An event with year 1990 and event "Founded"
    gives "1990" and "Founded"; the empty event gives the two sentinels;
    an empty string and 0 fall through to the next key; the keys are
    case-sensitive. *)
Theorem event_keys_first_truthy :
  (forall e : pydict,
      event_date e = extract date_keys "N/A" e /\
      event_label e = extract label_keys "No Label" e) /\
  (let e := [(lit "year", JInt 1990); (lit "event", s_ "Founded")] in
   event_date e = lit "1990" /\ event_label e = lit "Founded") /\
  (event_date [] = lit "N/A" /\ event_label [] = lit "No Label") /\
  (let e := [(lit "date", s_ ""); (lit "year", JInt 0); (lit "time", s_ "noon");
             (lit "label", JInt 0); (lit "Label", s_ "L")] in
   event_date e = lit "noon" /\ event_label e = lit "L") /\
  (let e := [(lit "DATE", s_ "2020"); (lit "LABEL", s_ "x")] in
   event_date e = lit "N/A" /\ event_label e = lit "No Label").
Proof.
  split; [|repeat split; reflexivity].
  intros e; split.
  - exact (or_chain_first_truthy ("date", "year", "time", "Date") "N/A" e).
  - exact (or_chain_first_truthy ("label", "title", "event", "Label")
                                 "No Label" e).
Qed.

(** C5. An edge entry that is a sequence of at least two elements gives
    the pair of its first two elements, stringified; a mapping with at
    least two values gives the pair of its first two values in iteration
    order, whatever the keys; an entry with fewer than two elements or
    values, or of another shape, gives nothing; the entries are handled
    one after the other, in order. The specification's example gives
    (A,B), (A,C). *)
Theorem clean_edges_positional :
  (forall items : list json, (2 <= List.length items)%nat ->
     clean_edge (JArr items) =
     [(py_str (nth 0 items JNull), py_str (nth 1 items JNull))]) /\
  (forall d : pydict, (2 <= List.length d)%nat ->
     clean_edge (JObj d) =
     [(py_str (nth 0 (values d) JNull), py_str (nth 1 (values d) JNull))]) /\
  (forall items : list json, (List.length items < 2)%nat ->
     clean_edge (JArr items) = []) /\
  (forall d : pydict, (List.length d < 2)%nat -> clean_edge (JObj d) = []) /\
  (forall e : json, is_list e = false -> (forall d, e <> JObj d) ->
     clean_edge e = []) /\
  (forall raw : list json, clean_edges raw = flat_map clean_edge raw) /\
  clean_edges example_edges = [(lit "A", lit "B"); (lit "A", lit "C")].
Proof.
  repeat split.
  - intros [|a [|b more]] H; simpl in *; try lia; reflexivity.
  - intros [|[k1 a] [|[k2 b] more]] H; simpl in *; try lia; reflexivity.
  - intros [|a [|b more]] H; simpl in *; try lia; reflexivity.
  - intros [|[k1 a] [|[k2 b] more]] H; simpl in *; try lia; reflexivity.
  - intros e Hl Hd. destruct e; simpl in *; try reflexivity.
    + discriminate.
    + exfalso. eapply Hd. reflexivity.
Qed.

(** C8. A label of more than 10 characters is shown as its first 10
    characters followed by three dots, wherever the cut falls; a label of
    at most 10 characters is shown unchanged. *)
Theorem display_label_cutoff (label : pystr) :
  ((10 < List.length label)%nat ->
     display_label label = firstn 10 label ++ lit "...") /\
  ((List.length label <= 10)%nat -> display_label label = label).
Proof.
  unfold display_label.
  destruct (Nat.ltb_spec 10 (List.length label)); split; intros; try lia;
    reflexivity.
Qed.

End NormalizerProperties.

(** ** The graph built from edges *)

Section GraphProperties.

Lemma pystr_eqb_eq (a b : pystr) : pystr_eqb a b = true <-> a = b.
Proof.
  unfold pystr_eqb. destruct (pystr_eq_dec a b); split; congruence.
Qed.

Lemma has_node_In (G : Graph) (n : pystr) :
  has_node G n = true <-> In n (nodes_of G).
Proof.
  unfold has_node, nodes_of. rewrite existsb_exists, in_map_iff.
  split; intros [entry [H1 H2]]; exists entry.
  - apply pystr_eqb_eq in H2. now split.
  - split; [assumption|]. now apply pystr_eqb_eq.
Qed.

Lemma nodes_of_add_node (G : Graph) (m n : pystr) :
  In n (nodes_of (add_node G m)) <-> In n (nodes_of G) \/ n = m.
Proof.
  unfold add_node. destruct (has_node G m) eqn:E.
  - apply has_node_In in E. split; [now left|].
    intros [H| ->]; assumption.
  - unfold nodes_of. rewrite map_app, in_app_iff. simpl.
    split; intros [H|H]; auto.
    + destruct H as [H|[]]; auto.
Qed.

Lemma nodes_of_add_neighbour (G : Graph) (u v : pystr) :
  nodes_of (add_neighbour G u v) = nodes_of G.
Proof.
  unfold nodes_of, add_neighbour. rewrite map_map. apply map_ext.
  intros entry. destruct (pystr_eqb (fst entry) u); reflexivity.
Qed.

Lemma nodes_of_add_edge (G : Graph) (u v n : pystr) :
  In n (nodes_of (add_edge G (u, v))) <-> In n (nodes_of G) \/ n = u \/ n = v.
Proof.
  unfold add_edge. rewrite !nodes_of_add_neighbour, !nodes_of_add_node.
  tauto.
Qed.

Lemma nodes_of_add_edges_from (edges : list (pystr * pystr)) :
  forall (G : Graph) (n : pystr),
    In n (nodes_of (add_edges_from G edges)) <->
    In n (nodes_of G) \/ endpoint edges n.
Proof.
  unfold add_edges_from, endpoint.
  induction edges as [|[u v] edges IH]; intros G n; cbn [fold_left].
  - split; [now left|]. intros [H|(u & v & [] & _)]; assumption.
  - rewrite IH, nodes_of_add_edge. split.
    + intros [[H|H]|(u' & v' & Hin & H)].
      * now left.
      * right. exists u, v. split; [now left|assumption].
      * right. exists u', v'. split; [now right|assumption].
    + intros [H|(u' & v' & [Heq|Hin] & H)].
      * left. now left.
      * inversion Heq; subst. left. now right.
      * right. exists u', v'. now split.
Qed.

Lemma number_of_nodes_length (G : Graph) :
  number_of_nodes G = List.length (nodes_of G).
Proof.
  unfold number_of_nodes, nodes_of. now rewrite length_map.
Qed.

Lemma has_node_nonempty (G : Graph) (n : pystr) :
  In n (nodes_of G) -> number_of_nodes G <> 0%nat.
Proof.
  rewrite number_of_nodes_length. destruct (nodes_of G); simpl; [tauto|lia].
Qed.

Lemma existsb_pystr_In (v : pystr) (l : list pystr) :
  existsb (pystr_eqb v) l = true <-> In v l.
Proof.
  rewrite existsb_exists. split.
  - intros [w [Hin Heq]]. apply pystr_eqb_eq in Heq. now subst.
  - intros Hin. exists v. split; [assumption|]. now apply pystr_eqb_eq.
Qed.

Lemma neighbours_add_node (G : Graph) (n x : pystr) :
  neighbours (add_node G n) x = neighbours G x.
Proof.
  unfold add_node. destruct (has_node G n); [reflexivity|].
  unfold neighbours. rewrite flat_map_app. simpl.
  destruct (pystr_eqb n x); now rewrite app_nil_r.
Qed.

Lemma neighbours_add_neighbour (G : Graph) (u v x w : pystr) :
  In w (neighbours (add_neighbour G u v) x) <->
  In w (neighbours G x) \/ (x = u /\ w = v /\ In u (nodes_of G)).
Proof.
  induction G as [|[k nb] G IH].
  - simpl. tauto.
  - unfold neighbours, add_neighbour in *. cbn [map flat_map fst snd nodes_of].
    rewrite !in_app_iff, IH. clear IH.
    destruct (pystr_eqb k u) eqn:Eu; cbn [fst snd].
    + apply pystr_eqb_eq in Eu. subst k.
      destruct (pystr_eqb u x) eqn:Ex.
      * apply pystr_eqb_eq in Ex. subst x.
        destruct (existsb (pystr_eqb v) nb) eqn:Ev.
        -- apply existsb_pystr_In in Ev. simpl. intuition (subst; auto).
        -- rewrite in_app_iff. simpl. intuition (subst; auto).
      * assert (u <> x).
        { intros Heq. apply pystr_eqb_eq in Heq. congruence. }
        simpl. intuition congruence.
    + assert (k <> u).
      { intros Heq. apply pystr_eqb_eq in Heq. congruence. }
      simpl. intuition congruence.
Qed.

Lemma neighbours_add_edge (G : Graph) (u v x w : pystr) :
  In w (neighbours (add_edge G (u, v)) x) <->
  In w (neighbours G x) \/ (x = u /\ w = v) \/ (x = v /\ w = u).
Proof.
  unfold add_edge.
  rewrite !neighbours_add_neighbour, !neighbours_add_node.
  rewrite nodes_of_add_neighbour.
  assert (Hu : In u (nodes_of (add_node (add_node G u) v))).
  { rewrite !nodes_of_add_node. auto. }
  assert (Hv : In v (nodes_of (add_node (add_node G u) v))).
  { rewrite !nodes_of_add_node. auto. }
  tauto.
Qed.

Lemma neighbours_add_edges_from (edges : list (pystr * pystr)) :
  forall (G : Graph) (x w : pystr),
    In w (neighbours (add_edges_from G edges) x) <->
    In w (neighbours G x) \/ joined edges x w.
Proof.
  unfold add_edges_from, joined.
  induction edges as [|[u v] edges IH]; intros G x w; cbn [fold_left].
  - split; [now left|]. intros [H|(u & v & [] & _)]; assumption.
  - rewrite IH, neighbours_add_edge. split.
    + intros [[H|H]|(u' & v' & Hin & H)].
      * now left.
      * right. exists u, v. split; [now left|assumption].
      * right. exists u', v'. split; [now right|assumption].
    + intros [H|(u' & v' & [Heq|Hin] & H)].
      * left. now left.
      * inversion Heq; subst. left. now right.
      * right. exists u', v'. now split.
Qed.

End GraphProperties.

(** ** Rendering of slides *)

Section RenderProperties.

Context {RT : PyRuntime} {LB : Libraries}.

Lemma render_network_graph_slide (t : pystr) (content : json) :
  render_slide (descriptor (JStr t) "network_graph" content) =
  (fig <- network_graph_figure content ;; Ok (picture_page t fig 1.5)).
Proof. reflexivity. Qed.

Lemma render_timeline_slide (t : pystr) (content : json) :
  render_slide (descriptor (JStr t) "timeline" content) =
  (fig <- timeline_figure content ;; Ok (picture_page t fig 2.5)).
Proof. reflexivity. Qed.

Lemma render_slides_cons (d : json) (rest : list json) (page : slide) :
  render_slide d = Ok page ->
  render_slides (d :: rest) = (pages <- render_slides rest ;; Ok (page :: pages)).
Proof. intros H. simpl. now rewrite H. Qed.

Lemma render_slides_pages (deck : list json) :
  forall pages, render_slides deck = Ok pages ->
                Forall2 (fun d page => render_slide d = Ok page) deck pages.
Proof.
  induction deck as [|d deck IH]; simpl; intros pages H.
  - inversion H. constructor.
  - destruct (render_slide d) as [page|e] eqn:Ed; simpl in H; [|discriminate].
    destruct (render_slides deck) as [more|e]; simpl in H; [|discriminate].
    inversion H; subst. constructor; [assumption|]. now apply IH.
Qed.

Lemma render_slides_returns (deck : list json) :
  Forall (fun d => returns (render_slide d)) deck ->
  returns (render_slides deck).
Proof.
  induction 1 as [|d deck [page Hd] _ [pages IH]]; simpl.
  - eexists; reflexivity.
  - rewrite Hd, IH. eexists; reflexivity.
Qed.

Lemma is_type_other (sType : json) (name : string) :
  sType <> JStr (lit name) -> is_type sType name = false.
Proof.
  intros H. destruct sType; simpl; try reflexivity.
  unfold pystr_eqb. destruct (pystr_eq_dec s (lit name)); congruence.
Qed.

(** C3. A timeline slide whose content is itself the sequence of events
    does not render: reading [events] from the content raises
    AttributeError before the test of line 147 is reached, the slide
    raises, and so does the build of a deck that holds such a slide. The
    same events under the key [events] do render. *)
Theorem timeline_list_content_raises (t : pystr) (evs : list json) :
  timeline_figure (JArr evs) = Raise AttributeError /\
  render_slide (descriptor (JStr t) "timeline" (JArr evs))
    = Raise AttributeError /\
  create_slide_deck (JArr [descriptor (JStr t) "timeline" (JArr evs)])
    = Raise AttributeError /\
  returns (render_slide (descriptor (JStr t) "timeline"
                                    (JObj [(lit "events", JArr evs)]))).
Proof.
  repeat split.
  rewrite render_timeline_slide. unfold timeline_figure.
  change (py_get (JObj [(lit "events", JArr evs)]) "events" (JArr []))
    with (Ok (JArr evs)).
  cbn [bind is_list]. rewrite andb_false_r. cbn [py_iter bind].
  destruct (read_events evs) as [dates labels]. eexists; reflexivity.
Qed.

(** C6. When the build of a deck returns, its pages are the pages of the
    descriptors, one for each and in the same order, and the build returns
    whenever every descriptor renders. A descriptor whose type is none of
    bullet_points, bar_chart, network_graph, timeline, with a string title
    (or none, which gives "No Title"), renders as a page that holds the
    title box and nothing else. *)
Theorem one_page_per_descriptor :
  (forall (deck : list json) (pages : list slide),
      create_slide_deck (JArr deck) = Ok pages ->
      List.length pages = List.length deck /\
      Forall2 (fun d page => render_slide d = Ok page) deck pages) /\
  (forall deck : list json,
      Forall (fun d => returns (render_slide d)) deck ->
      returns (create_slide_deck (JArr deck))) /\
  (forall (d : pydict) (t : pystr),
      dict_get d "title" (JStr (lit "No Title")) = JStr t ->
      (forall name, In name slide_types ->
                    dict_get d "type" JNull <> JStr (lit name)) ->
      render_slide (JObj d) = Ok [title_box t]).
Proof.
  split; [|split].
  - intros deck pages H. apply render_slides_pages in H.
    split; [|assumption]. symmetry. eapply Forall2_length; eassumption.
  - intros deck H. now apply render_slides_returns.
  - intros d t Ht Hty. unfold render_slide.
    cbn [py_get bind]. rewrite Ht. cbn [set_text bind].
    rewrite !is_type_other; [reflexivity| | | |];
      apply Hty; simpl; tauto.
Qed.

(** C7. For a network_graph slide whose graph has a node, when the layout
    and draw step stops on an exception the figure holds what was drawn
    until then followed by the centered text "Graph Error: " with the
    exception's description; the slide is added with that picture, nothing
    is raised, and the build goes on with the remaining descriptors. *)
Theorem draw_failure_is_caught
        (t : pystr) (content : json) (G : Graph)
        (drawn : list ax_call) (ex : lib_exn) (rest : list json) :
  network_graph_of content = Ok G ->
  number_of_nodes G <> 0%nat ->
  layout_and_draw G = (drawn, inl ex) ->
  let fig := Figure (8, 5)
               (drawn ++ [graph_error_text ex] ++
                [AxAxisOff; concept_map_caption]) in
  let page := picture_page t fig 1.5 in
  network_graph_figure content = Ok fig /\
  render_slide (descriptor (JStr t) "network_graph" content) = Ok page /\
  render_slides (descriptor (JStr t) "network_graph" content :: rest) =
    (pages <- render_slides rest ;; Ok (page :: pages)).
Proof.
  intros HG Hn Hdraw fig page.
  assert (Hfig : network_graph_figure content = Ok fig).
  { unfold network_graph_figure. rewrite HG. cbn [bind].
    unfold graph_body. apply Nat.eqb_neq in Hn. rewrite Hn.
    unfold try_layout_and_draw. rewrite Hdraw.
    unfold fig, graph_error_text. now rewrite <- app_assoc. }
  assert (Hpage : render_slide (descriptor (JStr t) "network_graph" content)
                  = Ok page).
  { rewrite render_network_graph_slide, Hfig. reflexivity. }
  repeat split; try assumption.
  now apply render_slides_cons.
Qed.

(** C9. With the content nodes [] and edges [] the figure of a
    network_graph slide holds the centered text "No Data for Graph", the
    hiding of the axes and the caption, and no drawing of a graph; the
    slide is added with that picture and nothing is raised. *)
Theorem empty_graph_placeholder (t : pystr) :
  let content := JObj [(lit "nodes", JArr []); (lit "edges", JArr [])] in
  let fig := Figure (8, 5) [no_data_text; AxAxisOff; concept_map_caption] in
  network_graph_of content = Ok empty_graph /\
  network_graph_figure content = Ok fig /\
  render_slide (descriptor (JStr t) "network_graph" content)
    = Ok (picture_page t fig 1.5).
Proof.
  repeat split.
Qed.

Lemma try_layout_and_draw_no_placeholder (G : Graph) :
  ~ In no_data_text (try_layout_and_draw G).
Proof.
  unfold try_layout_and_draw, layout_and_draw, computes, draws, pbind.
  destruct (spring_layout G) as [ex|pos]; simpl.
  { intros [H|[]]. discriminate. }
  destruct (draw_networkx_nodes_raises G pos) as [ex|]; simpl.
  { intros [H|[]]. discriminate. }
  destruct (draw_networkx_edges_raises G pos) as [ex|]; simpl.
  { intros [H|[H|[]]]; discriminate. }
  destruct (draw_networkx_labels_raises G pos _) as [ex|]; simpl.
  { intros [H|[H|[H|[]]]]; discriminate. }
  intros [H|[H|[H|[]]]]; discriminate.
Qed.

(** C10. When the node list of a network_graph slide cleans to nothing
    and its edge list to at least one edge, the graph is the one built
    from the edges: every endpoint of an edge is a node of it and it has
    no other node, so it is not empty, and two nodes are neighbours
    exactly when an edge joins them. The figure holds the layout and draw
    step on that graph, not the text "No Data for Graph": when the layout
    and the three drawing calls do not raise, the figure is the drawing of
    the nodes, of the edges and of the labels of that graph, followed by
    the hiding of the axes and the caption. *)
Theorem edges_alone_make_graph
        (d : pydict) (ns es : list json) :
  py_iter (dict_get d "nodes" (JArr [])) = Ok ns ->
  clean_nodes ns = Ok [] ->
  py_iter (dict_get d "edges" (JArr [])) = Ok es ->
  clean_edges es <> [] ->
  let G := add_edges_from empty_graph (clean_edges es) in
  network_graph_of (JObj d) = Ok G /\
  (forall u v, In (u, v) (clean_edges es) ->
               In u (nodes_of G) /\ In v (nodes_of G)) /\
  (forall n, In n (nodes_of G) -> endpoint (clean_edges es) n) /\
  number_of_nodes G <> 0%nat /\
  network_graph_figure (JObj d) =
    Ok (Figure (8, 5)
          (try_layout_and_draw G ++ [AxAxisOff; concept_map_caption])) /\
  ~ In no_data_text (try_layout_and_draw G) /\
  (forall x w, In w (neighbours G x) <-> joined (clean_edges es) x w) /\
  (forall pos : layout,
      spring_layout G = inr pos ->
      draw_networkx_nodes_raises G pos = None ->
      draw_networkx_edges_raises G pos = None ->
      draw_networkx_labels_raises G pos label_font = None ->
      network_graph_figure (JObj d) =
        Ok (Figure (8, 5)
              (graph_drawings G pos ++ [AxAxisOff; concept_map_caption]))).
Proof.
  intros Hns Hclean Hes Hne G.
  assert (HG : network_graph_of (JObj d) = Ok G).
  { unfold network_graph_of. cbn [py_get bind].
    rewrite Hns. cbn [bind]. rewrite Hclean. cbn [bind]. rewrite Hes.
    cbn [bind]. unfold build_graph, G.
    destruct (clean_edges es); [congruence|reflexivity]. }
  assert (Hin : forall u v, In (u, v) (clean_edges es) ->
                            In u (nodes_of G) /\ In v (nodes_of G)).
  { intros u v H. unfold G.
    split; apply nodes_of_add_edges_from; right; exists u, v; auto. }
  assert (Hnz : number_of_nodes G <> 0%nat).
  { destruct (clean_edges es) as [|[u v] more] eqn:E; [congruence|].
    apply (has_node_nonempty G u). apply (Hin u v). now left. }
  assert (Hfig : network_graph_figure (JObj d) =
                 Ok (Figure (8, 5)
                       (try_layout_and_draw G ++
                        [AxAxisOff; concept_map_caption]))).
  { unfold network_graph_figure. rewrite HG. cbn [bind].
    unfold graph_body. apply Nat.eqb_neq in Hnz. now rewrite Hnz. }
  split; [exact HG|]. split; [exact Hin|].
  split; [|split; [exact Hnz|split; [exact Hfig|split; [|split]]]].
  - intros n H. apply nodes_of_add_edges_from in H.
    destruct H as [[]|H]. exact H.
  - apply try_layout_and_draw_no_placeholder.
  - intros x w. unfold G. rewrite neighbours_add_edges_from.
    simpl. tauto.
  - intros pos Hpos Hnodes Hedges Hlabels. rewrite Hfig.
    unfold try_layout_and_draw, layout_and_draw, computes, draws, pbind.
    rewrite Hpos, Hnodes, Hedges. fold label_font. rewrite Hlabels.
    reflexivity.
Qed.

End RenderProperties.

Lemma clean_edges_positional_witness :
  (2 <= List.length [@JInt plain_runtime 1; JInt 2; JInt 3])%nat /\
  @clean_edge plain_runtime (JArr [JInt 1; JInt 2; JInt 3])
    = [(lit "1", lit "2")] /\
  (List.length [@s_ plain_runtime "X"] < 2)%nat /\
  @clean_edge plain_runtime (JArr [s_ "X"]) = [].
Proof.
  destruct (@clean_edges_positional plain_runtime)
    as (Hseq & _ & Hshort & _).
  split; [simpl; lia|].
  split; [apply (Hseq [JInt 1; JInt 2; JInt 3]); simpl; lia|].
  split; [simpl; lia|].
  apply (Hshort [s_ "X"]); simpl; lia.
Defined.

Lemma display_label_cutoff_witness :
  (10 < List.length (lit "International"))%nat /\
  display_label (lit "International") = lit "Internatio...".
Proof.
  split; [simpl; lia|].
  apply (proj1 (display_label_cutoff (lit "International"))); simpl; lia.
Defined.

Lemma one_page_per_descriptor_witness :
  (exists pages,
      @create_slide_deck plain_runtime quiet_libs (JArr two_slide_deck)
        = Ok pages /\ List.length pages = 2%nat) /\
  @render_slide plain_runtime quiet_libs (JObj quote_slide)
    = Ok [title_box (lit "Intro")].
Proof.
  destruct (@one_page_per_descriptor plain_runtime quiet_libs)
    as (Hpages & _ & Hunknown).
  split.
  - eexists. split; [reflexivity|].
    eapply (proj1 (Hpages two_slide_deck _ _)).
  - apply (Hunknown quote_slide (lit "Intro")); [reflexivity|].
    intros name [<-|[<-|[<-|[<-|[]]]]]; vm_compute; discriminate.
    Unshelve. reflexivity.
Defined.

Lemma draw_failure_is_caught_witness :
  @network_graph_of plain_runtime one_node_content = Ok [(lit "A", [])] /\
  number_of_nodes [(lit "A", [])] <> 0%nat /\
  @layout_and_draw plain_runtime failing_libs [(lit "A", [])]
    = ([], inl layout_failure) /\
  @render_slide plain_runtime failing_libs
     (descriptor (s_ "Map") "network_graph" one_node_content)
  = Ok (picture_page (lit "Map")
          (Figure (8, 5)
             [graph_error_text layout_failure; AxAxisOff;
              concept_map_caption]) 1.5).
Proof.
  split; [reflexivity|]. split; [simpl; lia|]. split; [reflexivity|].
  apply (@draw_failure_is_caught plain_runtime failing_libs
           (lit "Map") one_node_content [(lit "A", [])] []
           layout_failure []);
    [reflexivity | simpl; lia | reflexivity].
Defined.

Lemma edges_alone_make_graph_witness :
  @clean_nodes plain_runtime [] = Ok [] /\
  @clean_edges plain_runtime [JArr [s_ "A"; s_ "B"]] <> [] /\
  @network_graph_of plain_runtime (JObj edges_only)
    = Ok [(lit "A", [lit "B"]); (lit "B", [lit "A"])] /\
  number_of_nodes
    (add_edges_from empty_graph
       (@clean_edges plain_runtime [JArr [s_ "A"; s_ "B"]])) <> 0%nat /\
  @network_graph_figure plain_runtime quiet_libs (JObj edges_only) =
    Ok (Figure (8, 5)
          (@graph_drawings plain_runtime quiet_libs
             [(lit "A", [lit "B"]); (lit "B", [lit "A"])] tt ++
           [AxAxisOff; concept_map_caption])).
Proof.
  split; [reflexivity|]. split; [simpl; discriminate|].
  destruct (@edges_alone_make_graph plain_runtime quiet_libs edges_only
              [] [JArr [s_ "A"; s_ "B"]])
    as (HG & _ & _ & Hnz & _ & _ & _ & Hdrawn);
    [reflexivity | reflexivity | reflexivity | simpl; discriminate |].
  split; [exact HG|]. split; [exact Hnz|].
  apply (Hdrawn tt); reflexivity.
Defined.

(** * Further properties of the clean-up loops *)

Section NormalizerExtras.

Context {RT : PyRuntime}.

(** X1. Canonical input passes through unchanged: a node list of plain
    strings cleans to those strings, and an edge list of two-element
    sequences of strings cleans to those pairs, in order and with
    duplicates kept. *)
Theorem canonical_input_unchanged
        (ids : list pystr) (pairs : list (pystr * pystr)) :
  clean_nodes (map JStr ids) = Ok ids /\
  clean_edges (map pair_entry pairs) = pairs.
Proof.
  split.
  - induction ids as [|i ids IH]; simpl; [reflexivity|].
    rewrite IH. reflexivity.
  - induction pairs as [|[u v] pairs IH]; simpl; [reflexivity|].
    now rewrite IH.
Qed.

Lemma clean_node_short (n : json) (here : list pystr) :
  clean_node n = Ok here -> (List.length here <= 1)%nat.
Proof.
  destruct n as [| | | | |items|d]; simpl; intros H;
    try (inversion H; subst; simpl; lia).
  - destruct items; inversion H; subst; simpl; lia.
  - destruct d as [|[k v] d]; simpl in H; inversion H; subst; simpl; lia.
Qed.

Lemma clean_edge_short (e : json) : (List.length (clean_edge e) <= 1)%nat.
Proof.
  destruct e as [| | | | |items|d]; simpl; try lia.
  - destruct items as [|a [|b more]]; simpl; lia.
  - destruct d as [|[k1 a] [|[k2 b] more]]; simpl; lia.
Qed.

(** X2. Cleaning never invents entries: every raw entry gives at most one
    node and at most one edge. So whenever the node loop returns there are
    no more clean nodes than raw node entries, and for every list of raw
    edge entries there are no more clean edges than entries. *)
Theorem cleaning_never_adds (raw : list json) :
  (forall nodes : list pystr,
      clean_nodes raw = Ok nodes ->
      (List.length nodes <= List.length raw)%nat) /\
  (List.length (clean_edges raw) <= List.length raw)%nat.
Proof.
  split.
  - induction raw as [|n raw IH]; simpl; intros nodes H.
    + inversion H. simpl. lia.
    + destruct (clean_node n) as [here|e] eqn:En; simpl in H; [|discriminate].
      destruct (clean_nodes raw) as [more|e]; simpl in H; [|discriminate].
      inversion H; subst. rewrite length_app.
      pose proof (clean_node_short n here En).
      pose proof (IH more eq_refl). lia.
  - induction raw as [|e raw IH]; simpl; [lia|].
    rewrite length_app. pose proof (clean_edge_short e). lia.
Qed.

(** X3. The event loop keeps the mappings and nothing else: the lists of
    dates and of labels have the same length, which is the number of
    entries that are mappings, and the entries of any other shape do not
    change the result. *)
Theorem read_events_keeps_mappings (events : list json) :
  List.length (fst (read_events events))
    = List.length (filter is_dict events) /\
  List.length (snd (read_events events))
    = List.length (filter is_dict events) /\
  read_events (filter is_dict events) = read_events events.
Proof.
  induction events as [|e events (IH1 & IH2 & IH3)]; simpl; [auto|].
  destruct (read_events events) as [dates labels] eqn:E.
  destruct e; simpl in *; rewrite ?IH3; simpl; auto.
Qed.

Lemma lit_nonempty (s : string) : s <> EmptyString -> lit s <> [].
Proof. destruct s; [congruence|discriminate]. Qed.

Lemma int_str_nonempty (z : Z) : int_str z <> [].
Proof.
  unfold int_str. apply lit_nonempty.
  destruct (Z.to_int z) as [d|d]; simpl; [|discriminate].
  destruct d; discriminate.
Qed.

Lemma truthy_str_nonempty (v : json) :
  (forall f, float_repr f <> []) -> truthy v = true -> py_str v <> [].
Proof.
  intros Hf. destruct v as [|b|z|f|s|items|d]; simpl; intros H;
    try discriminate.
  - destruct b; discriminate.
  - apply int_str_nonempty.
  - apply Hf.
  - destruct s; [discriminate|discriminate].
Qed.

Lemma first_truthy_truthy (keys : list string) (e : pydict) (v : json) :
  first_truthy keys e = Some v -> truthy v = true.
Proof.
  induction keys as [|k keys IH]; simpl; [discriminate|].
  destruct (lookup (lit k) e) as [w|]; [|assumption].
  destruct (truthy w) eqn:E; [|assumption].
  intros H. inversion H; subst. assumption.
Qed.

Lemma extract_nonempty (keys : list string) (sentinel : string) (e : pydict) :
  (forall f, float_repr f <> []) -> sentinel <> EmptyString ->
  extract keys sentinel e <> [].
Proof.
  intros Hf Hs. unfold extract.
  destruct (first_truthy keys e) as [v|] eqn:E.
  - apply truthy_str_nonempty; [assumption|].
    eapply first_truthy_truthy; eassumption.
  - now apply lit_nonempty.
Qed.

(** X4. The date and the label read from an event are never the empty
    string, whatever the event holds, as long as a float never prints as
    the empty string: an empty value falls through to the next key or to
    the sentinel. Only the empty string is replaced: a value made of
    spaces is truthy and is kept as it is. *)
Theorem event_texts_never_empty :
  (forall e : pydict,
      (forall f, float_repr f <> []) ->
      event_date e <> [] /\ event_label e <> []) /\
  (forall s : pystr,
      s <> [] ->
      event_date [(lit "date", JStr s)] = s /\
      event_label [(lit "label", JStr s)] = s).
Proof.
  split.
  - intros e Hf. split.
    + unfold event_date.
      rewrite (or_chain_first_truthy ("date", "year", "time", "Date")
                                     "N/A" e).
      apply extract_nonempty; [assumption|discriminate].
    + unfold event_label.
      rewrite (or_chain_first_truthy ("label", "title", "event", "Label")
                                     "No Label" e).
      apply extract_nonempty; [assumption|discriminate].
  - intros [|ch s] Hs; [congruence|]. split; reflexivity.
Qed.

End NormalizerExtras.

(** X5. A displayed label has at most 13 characters and keeps the first
    ten characters of the label. *)
Theorem display_label_bounded (label : pystr) :
  (List.length (display_label label) <= 13)%nat /\
  firstn 10 (display_label label) = firstn 10 label.
Proof.
  unfold display_label.
  destruct (Nat.ltb_spec 10 (List.length label)) as [H|H].
  - split.
    + rewrite length_app, length_firstn.
      change (List.length (lit "...")) with 3%nat. lia.
    + rewrite firstn_app, firstn_firstn.
      rewrite length_firstn.
      replace (10 - Nat.min 10 (List.length label))%nat with 0%nat by lia.
      simpl. now rewrite app_nil_r.
  - split; [lia|reflexivity].
Qed.

(** X6. Shortening a label twice is the same as shortening it once. *)
Theorem display_label_idempotent (label : pystr) :
  display_label (display_label label) = display_label label.
Proof.
  unfold display_label at 2 3.
  destruct (Nat.ltb_spec 10 (List.length label)) as [H|H].
  - unfold display_label.
    assert (Hl : List.length (firstn 10 label ++ lit "...") = 13%nat).
    { rewrite length_app, length_firstn.
      change (List.length (lit "...")) with 3%nat. lia. }
    rewrite Hl. simpl Nat.ltb.
    rewrite firstn_app, firstn_firstn, length_firstn.
    replace (10 - Nat.min 10 (List.length label))%nat with 0%nat by lia.
    simpl. now rewrite app_nil_r.
  - unfold display_label.
    destruct (Nat.ltb_spec 10 (List.length label)); [lia|reflexivity].
Qed.

(** * Further properties of the graph and of its drawing *)

Section GraphExtras.

Context {RT : PyRuntime} {LB : Libraries}.

Lemma nodes_of_add_nodes_from (nodes : list pystr) :
  forall (G : Graph) (n : pystr),
    In n (nodes_of (add_nodes_from G nodes)) <-> In n (nodes_of G) \/ In n nodes.
Proof.
  unfold add_nodes_from.
  induction nodes as [|m nodes IH]; intros G n; cbn [fold_left].
  - simpl. tauto.
  - rewrite IH, nodes_of_add_node. simpl. intuition congruence.
Qed.

Lemma NoDup_add_node (G : Graph) (n : pystr) :
  NoDup (nodes_of G) -> NoDup (nodes_of (add_node G n)).
Proof.
  intros H. unfold add_node. destruct (has_node G n) eqn:E; [assumption|].
  unfold nodes_of. rewrite map_app. simpl.
  apply NoDup_app; [assumption | repeat constructor; intros [] |].
  intros m Hm [<-|[]].
  apply has_node_In in Hm. congruence.
Qed.

Lemma NoDup_add_edge (G : Graph) (e : pystr * pystr) :
  NoDup (nodes_of G) -> NoDup (nodes_of (add_edge G e)).
Proof.
  intros H. destruct e as [u v]. unfold add_edge.
  rewrite !nodes_of_add_neighbour. now apply NoDup_add_node, NoDup_add_node.
Qed.

Lemma NoDup_fold_left {A} (f : Graph -> A -> Graph) (l : list A) :
  (forall G a, NoDup (nodes_of G) -> NoDup (nodes_of (f G a))) ->
  forall G, NoDup (nodes_of G) -> NoDup (nodes_of (fold_left f l G)).
Proof.
  intros Hf. induction l as [|a l IH]; intros G H; simpl; [assumption|].
  apply IH, Hf, H.
Qed.

Lemma build_graph_folds (nodes : list pystr) (edges : list (pystr * pystr)) :
  build_graph nodes edges =
  add_edges_from (add_nodes_from empty_graph nodes) edges.
Proof.
  unfold build_graph. destruct nodes, edges; reflexivity.
Qed.

(** X7. The nodes of the graph of lines 110-114 are the clean nodes
    together with the endpoints of the clean edges, and nothing else; an
    identifier that occurs several times is one node. *)
Theorem build_graph_nodes (nodes : list pystr) (edges : list (pystr * pystr)) :
  (forall n, In n (nodes_of (build_graph nodes edges)) <->
             In n nodes \/ endpoint edges n) /\
  NoDup (nodes_of (build_graph nodes edges)).
Proof.
  rewrite build_graph_folds. split.
  - intros n. rewrite nodes_of_add_edges_from, nodes_of_add_nodes_from.
    simpl. tauto.
  - apply NoDup_fold_left; [apply NoDup_add_edge|].
    apply NoDup_fold_left; [apply NoDup_add_node|]. constructor.
Qed.

Lemma build_graph_empty_iff (nodes : list pystr) (edges : list (pystr * pystr)) :
  number_of_nodes (build_graph nodes edges) = 0%nat <->
  nodes = [] /\ edges = [].
Proof.
  split.
  - intros H. rewrite number_of_nodes_length in H.
    apply length_zero_iff_nil in H.
    assert (Hno : forall n, ~ In n (nodes_of (build_graph nodes edges))).
    { intros n. rewrite H. intros []. }
    rewrite build_graph_folds in Hno. split.
    + destruct nodes as [|n nodes]; [reflexivity|]. exfalso.
      apply (Hno n). apply nodes_of_add_edges_from. left.
      apply nodes_of_add_nodes_from. right. now left.
    + destruct edges as [|[u v] edges]; [reflexivity|]. exfalso.
      apply (Hno u). apply nodes_of_add_edges_from. right.
      exists u, v. split; [now left|now left].
  - intros [-> ->]. reflexivity.
Qed.

(** X8. The text "No Data for Graph" is drawn exactly when there is no
    clean node and no clean edge. *)
Theorem placeholder_iff_nothing_clean
        (nodes : list pystr) (edges : list (pystr * pystr)) :
  In no_data_text (graph_body (build_graph nodes edges)) <->
  nodes = [] /\ edges = [].
Proof.
  unfold graph_body.
  destruct (number_of_nodes (build_graph nodes edges) =? 0)%nat eqn:E.
  - apply Nat.eqb_eq in E. split.
    + intros _. now apply build_graph_empty_iff.
    + intros _. now left.
  - apply Nat.eqb_neq in E. split.
    + intros H. now apply try_layout_and_draw_no_placeholder in H.
    + intros H. apply build_graph_empty_iff in H. contradiction.
Qed.

(** X9. What the guarded layout and draw step of lines 121-130 leaves on
    the axes of the graph G, by the first call that raises: nothing but
    the "Graph Error" text when the layout or the drawing of the nodes
    raises; the drawing of the nodes and the text when the drawing of the
    edges raises; the drawings of the nodes and of the edges and the text
    when the drawing of the labels raises; and the three drawings (nodes,
    edges, labels, all of G at the computed positions) and no text when
    nothing raises. The text carries the description of the exception
    that was raised. *)
Theorem try_layout_and_draw_outcomes (G : Graph) :
  (forall ex, spring_layout G = inl ex ->
              try_layout_and_draw G = [graph_error_text ex]) /\
  (forall pos : layout,
      spring_layout G = inr pos ->
      (forall ex,
          draw_networkx_nodes_raises G pos = Some ex ->
          try_layout_and_draw G = [graph_error_text ex]) /\
      (forall ex,
          draw_networkx_nodes_raises G pos = None ->
          draw_networkx_edges_raises G pos = Some ex ->
          try_layout_and_draw G =
            firstn 1 (graph_drawings G pos) ++ [graph_error_text ex]) /\
      (forall ex,
          draw_networkx_nodes_raises G pos = None ->
          draw_networkx_edges_raises G pos = None ->
          draw_networkx_labels_raises G pos label_font = Some ex ->
          try_layout_and_draw G =
            firstn 2 (graph_drawings G pos) ++ [graph_error_text ex]) /\
      (draw_networkx_nodes_raises G pos = None ->
       draw_networkx_edges_raises G pos = None ->
       draw_networkx_labels_raises G pos label_font = None ->
       try_layout_and_draw G = graph_drawings G pos)).
Proof.
  unfold try_layout_and_draw, layout_and_draw, computes, draws, pbind.
  fold label_font. split.
  - intros ex ->. reflexivity.
  - intros pos ->. repeat split.
    + intros ex ->. reflexivity.
    + intros ex -> ->. reflexivity.
    + intros ex -> -> ->. reflexivity.
    + intros -> -> ->. reflexivity.
Qed.

(** X10. Node labels are always drawn with the font registered at start-up
    when there is one, and with "sans-serif" otherwise. *)
Theorem labels_use_registered_font
        (G G' : Graph) (pos : layout) (family : pystr) (kw : kwargs) :
  In (DrawLabels G' pos family kw) (try_layout_and_draw G) ->
  family = label_font /\ G' = G.
Proof.
  unfold try_layout_and_draw, layout_and_draw, computes, draws, pbind,
    label_font.
  destruct (spring_layout G) as [ex|p]; simpl.
  { intros [H|[]]. discriminate. }
  destruct (draw_networkx_nodes_raises G p) as [ex|]; simpl.
  { intros [H|[]]. discriminate. }
  destruct (draw_networkx_edges_raises G p) as [ex|]; simpl.
  { intros [H|[H|[]]]; discriminate. }
  destruct (draw_networkx_labels_raises G p _) as [ex|]; simpl.
  { intros [H|[H|[H|[]]]]; discriminate. }
  intros [H|[H|[H|[]]]]; try discriminate.
  inversion H; subst. auto.
Qed.

End GraphExtras.

(** * Further properties of slides and decks *)

Section SlideExtras.

Context {RT : PyRuntime} {LB : Libraries}.

Ltac known_tests :=
  repeat match goal with
         | |- context [is_type (s_ ?a) ?b] =>
             let v := eval vm_compute in (is_type (s_ a) b) in
             change (is_type (s_ a) b) with v
         end;
  cbv iota.

(** A mapping descriptor with a string title, by type. *)
Ltac open_slide Ht Hty :=
  unfold render_slide; cbn [py_get bind];
  rewrite Ht; cbn [set_text bind]; rewrite Hty; known_tests.


Lemma py_iter_scalar (v : json) :
  scalar v = true -> py_iter v = Raise TypeError.
Proof. destruct v; simpl; intros H; try reflexivity; discriminate. Qed.





(** X14. Every slide that is added starts with the title box, filled with
    the descriptor's title or with "No Title" when there is none, and
    holds at most one more shape. *)
Theorem slide_starts_with_title (slide_data : json) (page : slide) :
  render_slide slide_data = Ok page ->
  exists (d : pydict) (t : pystr) (body : list shape),
    slide_data = JObj d /\
    dict_get d "title" (JStr (lit "No Title")) = JStr t /\
    page = title_box t :: body /\
    (List.length body <= 1)%nat.
Proof.
  intros H. destruct slide_data as [| | | | | |d]; try discriminate.
  exists d. unfold render_slide in H. cbn [py_get bind] in H.
  destruct (dict_get d "title" (JStr (lit "No Title"))) as [| | | |t| |];
    try discriminate.
  exists t. cbn [set_text bind] in H.
  repeat match type of H with
         | (if ?b then _ else _) = _ => destruct b
         end;
    repeat match type of H with
           | bind ?r _ = _ => destruct r; cbn [bind] in H; try discriminate
           end;
    inversion H; subst; eexists; repeat split; simpl; lia.
Qed.

(** X15. A failure of the bar drawing is not caught: building the figure
    of the bar chart raises that exception, and no slide is added for the
    descriptor. When the drawing succeeds the calls made on the axes are
    the bars, the title and the grid, the chart being titled with the
    descriptor's title, or with None when there is no title (the title box
    then says "No Title"). *)
Theorem bar_chart_failure_propagates (d c : pydict) (t : pystr) :
  dict_get d "title" (JStr (lit "No Title")) = JStr t ->
  dict_get d "type" JNull = s_ "bar_chart" ->
  dict_get d "content" (JObj []) = JObj c ->
  let labels := dict_get c "labels" (JArr []) in
  let values := dict_get c "values" (JArr []) in
  (forall ex, bar_raises labels values = Some ex ->
              bar_chart_figure (JObj d) (JObj c) = Raise (LibraryError ex) /\
              forall page, render_slide (JObj d) <> Ok page) /\
  (bar_raises labels values = None ->
   bar_chart_figure (JObj d) (JObj c) =
     Ok (Figure (8, 4.5)
           [AxBar labels values [("color", KS "#4A90E2"); ("alpha", KQ 0.8)];
            AxSetTitle (dict_get d "title" JNull) [("fontsize", KQ 14)];
            AxGrid [("axis", KS "y"); ("linestyle", KS "--");
                    ("alpha", KQ 0.5)]])).
Proof.
  intros Ht Hty Hc labels values. split.
  - intros ex Hex.
    assert (Hfig : bar_chart_figure (JObj d) (JObj c)
                   = Raise (LibraryError ex)).
    { unfold bar_chart_figure. cbn [py_get bind].
      fold labels values. now rewrite Hex. }
    split; [exact Hfig|].
    intros page. open_slide Ht Hty. rewrite Hc, Hfig. discriminate.
  - intros Hok. unfold bar_chart_figure. cbn [py_get bind].
    fold labels values. now rewrite Hok.
Qed.

(** X16. Whenever a bullet_points slide is added, its text box has one
    paragraph for each item of [points], in order, each the bullet
    followed by the item as a string. When [points] is a string instead
    of a list, every character of it is a bullet of its own. *)
Theorem bullets_follow_points (t : pystr) (c : pydict) (page : slide) :
  render_slide (descriptor (JStr t) "bullet_points" (JObj c)) = Ok page ->
  (forall items : list json,
      lookup (lit "points") c = Some (JArr items) ->
      page =
        [title_box t;
         TextBox 0.5 1.5 9 5
           (TextFrame [] None true
              (map (fun item => Paragraph (bullet ++ py_str item) 18 10)
                   items))]) /\
  (forall s : pystr,
      lookup (lit "points") c = Some (JStr s) ->
      page =
        [title_box t;
         TextBox 0.5 1.5 9 5
           (TextFrame [] None true
              (map (fun ch => Paragraph (bullet ++ [ch]) 18 10) s))]).
Proof.
  change (render_slide (descriptor (JStr t) "bullet_points" (JObj c)))
    with (items <- py_iter (dict_get c "points" (JArr [])) ;;
          Ok [title_box t;
              TextBox 0.5 1.5 9 5
                (TextFrame [] None true (map bullet_paragraph items))]).
  intros Hpage. split; intros x H; unfold dict_get in Hpage;
    rewrite H in Hpage; cbn [py_iter bind] in Hpage;
    inversion Hpage; subst.
  - reflexivity.
  - now rewrite map_map.
Qed.



Lemma nth_error_combine {A B} (l1 : list A) (l2 : list B) :
  forall i a b,
    nth_error l1 i = Some a -> nth_error l2 i = Some b ->
    nth_error (combine l1 l2) i = Some (a, b).
Proof.
  revert l2. induction l1 as [|x l1 IH]; intros [|y l2] [|i] a b H1 H2;
    simpl in *; try discriminate.
  - congruence.
  - now apply IH.
Qed.

Lemma event_texts_at (pairs : list (pystr * pystr)) :
  forall (k i : nat) (date label : pystr),
    nth_error pairs i = Some (date, label) ->
    In (date_text (inject_Z (Z.of_nat (k + i))) date) (event_texts k pairs) /\
    In (label_text (inject_Z (Z.of_nat (k + i))) (display_label label))
       (event_texts k pairs).
Proof.
  induction pairs as [|[d l] pairs IH]; intros k [|i] date label H;
    simpl in H; try discriminate.
  - inversion H; subst. rewrite Nat.add_0_r. simpl. auto.
  - destruct (IH (S k) i date label H) as [H1 H2].
    rewrite Nat.add_succ_r. simpl in *. auto.
Qed.

(** X18. The event at position i (counting from 0) of the timeline is
    drawn at x = i: its date above the line and its shortened label below
    it. *)
Theorem timeline_event_position
        (dates labels : list pystr) (i : nat) (date label : pystr) :
  nth_error dates i = Some date ->
  nth_error labels i = Some label ->
  let x := inject_Z (Z.of_nat i) in
  In (date_text x date) (timeline_body dates labels) /\
  In (label_text x (display_label label)) (timeline_body dates labels).
Proof.
  intros Hd Hl x.
  destruct (event_texts_at (combine dates labels) 0 i date label
              (nth_error_combine dates labels i date label Hd Hl))
    as [H1 H2].
  unfold timeline_body. destruct dates as [|d0 dates].
  { destruct i; discriminate. }
  split; apply in_or_app; right; apply in_or_app; left; assumption.
Qed.

(** X19. The top-level JSON value has to be a list of mappings: a number,
    a boolean or null raises TypeError; a non-empty object or string has
    its keys or characters taken as descriptors and raises AttributeError;
    an empty list, object or string gives a deck without slides. *)
Theorem top_level_shapes :
  (forall v, scalar v = true -> create_slide_deck v = Raise TypeError) /\
  (forall kv d, create_slide_deck (JObj (kv :: d)) = Raise AttributeError) /\
  (forall ch s, create_slide_deck (JStr (ch :: s)) = Raise AttributeError) /\
  create_slide_deck (JArr []) = Ok [] /\
  create_slide_deck (JObj []) = Ok [] /\
  create_slide_deck (JStr []) = Ok [].
Proof.
  repeat split.
  intros v H. unfold create_slide_deck. now rewrite py_iter_scalar.
Qed.

(** X20. The build stops at the first descriptor that raises: when the
    descriptors before it render, the build raises that descriptor's
    exception, whatever follows, and no presentation is returned. A
    descriptor that is not a mapping is such a descriptor. *)
Theorem first_failure_aborts
        (before after : list json) (slide_data : json) (e : exn) :
  Forall (fun d => returns (render_slide d)) before ->
  render_slide slide_data = Raise e ->
  create_slide_deck (JArr (before ++ slide_data :: after)) = Raise e /\
  (forall d, is_dict d = false -> render_slide d = Raise AttributeError).
Proof.
  intros Hb He. split.
  - unfold create_slide_deck. cbn [py_iter bind].
    induction Hb as [|d before [page Hd] _ IH]; simpl.
    + now rewrite He.
    + now rewrite Hd, IH.
  - intros d Hd. destruct d; try reflexivity. discriminate.
Qed.

Lemma own_error_bind {A B} (r : result A) (k : A -> result B) :
  own_error r -> (forall a, own_error (k a)) -> own_error (bind r k).
Proof.
  intros Hr Hk e. destruct r as [a|e']; simpl.
  - apply Hk.
  - intros H. inversion H; subst. now apply Hr.
Qed.

Lemma own_error_Ok {A} (a : A) : own_error (Ok a).
Proof. intros e H. discriminate. Qed.

Lemma own_error_py_get (v : json) (key : string) (default : json) :
  own_error (py_get v key default).
Proof. intros e. destruct v; simpl; intros H; inversion H; reflexivity. Qed.

Lemma own_error_py_iter (v : json) : own_error (py_iter v).
Proof. intros e. destruct v; simpl; intros H; inversion H; reflexivity. Qed.

Lemma own_error_clean_nodes (raw : list json) : own_error (clean_nodes raw).
Proof.
  induction raw as [|n raw IH]; simpl; [apply own_error_Ok|].
  apply own_error_bind.
  - intros e. destruct n as [| | | | |items|d]; simpl; try discriminate.
    + destruct items; discriminate.
    + destruct d as [|[k v] d]; simpl; intros H; inversion H; reflexivity.
  - intros here. apply own_error_bind; [assumption|].
    intros more. apply own_error_Ok.
Qed.

(** X21. Building the figure of a network_graph or of a timeline slide,
    that is everything up to the saving of the picture, raises no library
    exception, whatever the layout and drawing calls do: what it raises is
    the AttributeError, TypeError or IndexError of reading the content.
    In particular no failure of the graph layout or drawing leaves the
    building of the graph figure. *)
Theorem figures_raise_no_library_error (content : json) (e : exn) :
  network_graph_figure content = Raise e \/
  timeline_figure content = Raise e ->
  is_library_error e = false.
Proof.
  intros [H|H]; revert e H.
  - change (own_error (network_graph_figure content)).
    unfold network_graph_figure.
    apply own_error_bind; [|intros; apply own_error_Ok].
    unfold network_graph_of.
    apply own_error_bind; [apply own_error_py_get|]. intros raw_nodes.
    apply own_error_bind; [apply own_error_py_get|]. intros raw_edges.
    apply own_error_bind; [apply own_error_py_iter|]. intros ns.
    apply own_error_bind; [apply own_error_clean_nodes|]. intros nodes.
    apply own_error_bind; [apply own_error_py_iter|]. intros es.
    apply own_error_Ok.
  - change (own_error (timeline_figure content)).
    unfold timeline_figure.
    apply own_error_bind; [apply own_error_py_get|]. intros events.
    apply own_error_bind; [apply own_error_py_iter|]. intros items.
    destruct (read_events items). apply own_error_Ok.
Qed.

End SlideExtras.

(** * Loose shapes of the lists *)

Section LooseShapes.

Context {RT : PyRuntime} {LB : Libraries}.

Lemma clean_nodes_of_strings {A} (f : A -> pystr) (l : list A) :
  clean_nodes (map (fun a => JStr (f a)) l) = Ok (map f l).
Proof.
  induction l as [|a l IH]; simpl; [reflexivity|]. now rewrite IH.
Qed.

(** X22. The node list is only iterated, never checked to be a list: when
    [nodes] is an object its keys become the nodes, and when it is a
    string every character of it becomes a node. *)
Theorem nodes_from_object_or_string (c : pydict) :
  lookup (lit "edges") c = None ->
  (forall kv : pydict,
      lookup (lit "nodes") c = Some (JObj kv) ->
      network_graph_of (JObj c) = Ok (build_graph (map fst kv) [])) /\
  (forall s : pystr,
      lookup (lit "nodes") c = Some (JStr s) ->
      network_graph_of (JObj c)
        = Ok (build_graph (map (fun ch => [ch]) s) [])).
Proof.
  intros He. split; intros x Hn; unfold network_graph_of;
    cbn [py_get bind]; unfold dict_get; rewrite Hn, He; cbn [py_iter bind].
  - rewrite (clean_nodes_of_strings fst x). reflexivity.
  - rewrite (clean_nodes_of_strings (fun ch => [ch]) x). reflexivity.
Qed.

(** X23. Whenever the figure of a timeline is produced, the content is a
    mapping and the events drawn are the ones under its key [events]: the
    content itself is never taken as the list of events. *)
Theorem timeline_events_come_from_key (content : json) (fig : figure) :
  timeline_figure content = Ok fig ->
  exists (c : pydict) (items : list json),
    content = JObj c /\
    py_iter (dict_get c "events" (JArr [])) = Ok items /\
    fig = Figure (8, 3)
            (timeline_body (fst (read_events items))
                           (snd (read_events items))).
Proof.
  intros H. destruct content as [| | | | | |c]; try discriminate.
  exists c. unfold timeline_figure in H. cbn [py_get bind is_list] in H.
  rewrite andb_false_r in H.
  destruct (py_iter (dict_get c "events" (JArr []))) as [items|e];
    cbn [bind] in H; [|discriminate].
  exists items. destruct (read_events items) as [dates labels].
  inversion H. auto.
Qed.

End LooseShapes.

(** * Concrete runs of the further properties *)

Lemma cleaning_never_adds_witness :
  @clean_nodes plain_runtime mixed_entries = Ok [lit "A"] /\
  (List.length [lit "A"] <= List.length mixed_entries)%nat /\
  (List.length (@clean_edges plain_runtime [JObj []; JArr [s_ "A"; s_ "B"]])
   <= 2)%nat.
Proof.
  split; [reflexivity|]. split.
  - apply (proj1 (@cleaning_never_adds plain_runtime mixed_entries)
                 [lit "A"]).
    reflexivity.
  - apply (proj2 (@cleaning_never_adds plain_runtime
                    [JObj []; JArr [s_ "A"; s_ "B"]])).
Defined.

Lemma event_texts_never_empty_witness :
  (forall f : @float plain_runtime, @float_repr plain_runtime f <> []) /\
  @event_date plain_runtime [(lit "date", JInt 0)] <> [] /\
  @event_label plain_runtime [(lit "date", JInt 0)] <> [] /\
  @event_label plain_runtime [(lit "label", s_ " ")] = lit " ".
Proof.
  split; [intros []|].
  destruct (@event_texts_never_empty plain_runtime) as [Hne Hkept].
  destruct (Hne [(lit "date", JInt 0)]) as [Hd Hl]; [intros []|].
  split; [exact Hd|]. split; [exact Hl|].
  apply (Hkept (lit " ")). discriminate.
Defined.

Lemma labels_use_registered_font_witness :
  In (@DrawLabels plain_runtime quiet_libs one_node_graph tt
        (lit "sans-serif") [("font_size", KQ 11)])
     (@try_layout_and_draw plain_runtime quiet_libs one_node_graph) /\
  lit "sans-serif" = @label_font plain_runtime quiet_libs /\
  one_node_graph = one_node_graph.
Proof.
  split; [simpl; right; right; left; reflexivity|].
  apply (@labels_use_registered_font plain_runtime quiet_libs
           one_node_graph one_node_graph tt (lit "sans-serif")
           [("font_size", KQ 11)]).
  simpl. right. right. left. reflexivity.
Defined.




Lemma slide_starts_with_title_witness :
  @render_slide plain_runtime quiet_libs (JObj quote_slide)
    = Ok [title_box (lit "Intro")] /\
  exists (d : @pydict plain_runtime) (t : pystr)
         (body : list (@shape plain_runtime quiet_libs)),
    JObj quote_slide = JObj d /\
    dict_get d "title" (JStr (lit "No Title")) = JStr t /\
    [title_box (lit "Intro")] = title_box t :: body /\
    (List.length body <= 1)%nat.
Proof.
  split; [reflexivity|].
  apply (@slide_starts_with_title plain_runtime quiet_libs
           (JObj quote_slide) [title_box (lit "Intro")]).
  reflexivity.
Defined.

Lemma bar_chart_failure_propagates_witness :
  @bar_raises plain_runtime shape_checking_libs
     (JArr [s_ "a"; s_ "b"]) (JArr [JInt 1; JInt 2; JInt 3])
    = Some bar_failure /\
  @bar_chart_figure plain_runtime shape_checking_libs (JObj uneven_bars)
     (JObj [(lit "labels", JArr [s_ "a"; s_ "b"]);
            (lit "values", JArr [JInt 1; JInt 2; JInt 3])])
    = Raise (LibraryError bar_failure).
Proof.
  split; [reflexivity|].
  destruct (@bar_chart_failure_propagates plain_runtime shape_checking_libs
              uneven_bars
              [(lit "labels", JArr [s_ "a"; s_ "b"]);
               (lit "values", JArr [JInt 1; JInt 2; JInt 3])]
              (lit "Sales"))
    as (Hraise & _); [reflexivity | reflexivity | reflexivity |].
  apply (Hraise bar_failure). reflexivity.
Defined.

Lemma bullets_follow_points_witness :
  @lookup plain_runtime (lit "points") string_points = Some (s_ "hi") /\
  @render_slide plain_runtime quiet_libs
     (descriptor (s_ "Agenda") "bullet_points" (JObj string_points)) =
    Ok [title_box (lit "Agenda");
        TextBox 0.5 1.5 9 5
          (TextFrame [] None true
             [Paragraph (bullet ++ lit "h") 18 10;
              Paragraph (bullet ++ lit "i") 18 10])] /\
  [title_box (lit "Agenda");
   @TextBox plain_runtime quiet_libs 0.5 1.5 9 5
     (TextFrame [] None true
        [Paragraph (bullet ++ lit "h") 18 10;
         Paragraph (bullet ++ lit "i") 18 10])] =
  [title_box (lit "Agenda");
   TextBox 0.5 1.5 9 5
     (TextFrame [] None true
        (map (fun ch => Paragraph (bullet ++ [ch]) 18 10) (lit "hi")))].
Proof.
  split; [reflexivity|]. split; [reflexivity|].
  apply (proj2 (@bullets_follow_points plain_runtime quiet_libs
                  (lit "Agenda") string_points _ eq_refl)
               (lit "hi")).
  reflexivity.
Defined.


Lemma timeline_event_position_witness :
  nth_error [lit "2020"; lit "2021"] 1 = Some (lit "2021") /\
  nth_error [lit "Start"; lit "International"] 1 = Some (lit "International") /\
  In (@date_text plain_runtime quiet_libs 1 (lit "2021"))
     (@timeline_body plain_runtime quiet_libs
        [lit "2020"; lit "2021"] [lit "Start"; lit "International"]) /\
  In (@label_text plain_runtime quiet_libs 1 (lit "Internatio..."))
     (@timeline_body plain_runtime quiet_libs
        [lit "2020"; lit "2021"] [lit "Start"; lit "International"]).
Proof.
  split; [reflexivity|]. split; [reflexivity|].
  apply (@timeline_event_position plain_runtime quiet_libs
           [lit "2020"; lit "2021"] [lit "Start"; lit "International"]
           1 (lit "2021") (lit "International")); reflexivity.
Defined.

Lemma top_level_shapes_witness :
  @scalar plain_runtime (JInt 7) = true /\
  @create_slide_deck plain_runtime quiet_libs (JInt 7) = Raise TypeError.
Proof.
  split; [reflexivity|].
  apply (proj1 (@top_level_shapes plain_runtime quiet_libs) (JInt 7)).
  reflexivity.
Defined.

Lemma first_failure_aborts_witness :
  @render_slide plain_runtime quiet_libs (JInt 5) = Raise AttributeError /\
  @create_slide_deck plain_runtime quiet_libs
     (JArr ([JObj quote_slide] ++ JInt 5 :: [JObj quote_slide]))
  = Raise AttributeError.
Proof.
  split; [reflexivity|].
  apply (@first_failure_aborts plain_runtime quiet_libs
           [JObj quote_slide] [JObj quote_slide] (JInt 5) AttributeError).
  - constructor; [|constructor]. eexists. reflexivity.
  - reflexivity.
Defined.

Lemma figures_raise_no_library_error_witness :
  @network_graph_figure plain_runtime failing_libs
     (JObj [(lit "nodes", JArr [JObj []])]) = Raise IndexError /\
  is_library_error IndexError = false.
Proof.
  split; [reflexivity|].
  apply (@figures_raise_no_library_error plain_runtime failing_libs
           (JObj [(lit "nodes", JArr [JObj []])]) IndexError).
  left. reflexivity.
Defined.

Lemma nodes_from_object_or_string_witness :
  @lookup plain_runtime (lit "edges") nodes_as_object = None /\
  @network_graph_of plain_runtime (JObj nodes_as_object)
    = Ok [(lit "A", []); (lit "B", [])].
Proof.
  split; [reflexivity|].
  apply (proj1 (@nodes_from_object_or_string plain_runtime nodes_as_object
                  eq_refl)
               [(lit "A", JInt 1); (lit "B", JInt 2)]).
  reflexivity.
Defined.

Lemma timeline_events_come_from_key_witness :
  exists (c : @pydict plain_runtime) (items : list (@json plain_runtime)),
    JObj dated_events = JObj c /\
    py_iter (dict_get c "events" (JArr [])) = Ok items /\
    Figure (8, 3)
      (@timeline_body plain_runtime quiet_libs [lit "2020"] [lit "No Label"])
    = Figure (8, 3)
        (@timeline_body plain_runtime quiet_libs
           (fst (read_events items)) (snd (read_events items))).
Proof.
  apply (@timeline_events_come_from_key plain_runtime quiet_libs
           (JObj dated_events)).
  reflexivity.
Defined.

Lemma try_layout_and_draw_outcomes_witness :
  @spring_layout plain_runtime failing_libs one_node_graph
    = inl layout_failure /\
  @try_layout_and_draw plain_runtime failing_libs one_node_graph
    = [graph_error_text layout_failure] /\
  @try_layout_and_draw plain_runtime quiet_libs one_node_graph
    = @graph_drawings plain_runtime quiet_libs one_node_graph tt.
Proof.
  split; [reflexivity|]. split.
  - apply (proj1 (@try_layout_and_draw_outcomes plain_runtime failing_libs
                    one_node_graph) layout_failure).
    reflexivity.
  - destruct (proj2 (@try_layout_and_draw_outcomes plain_runtime quiet_libs
                       one_node_graph) tt eq_refl)
      as (_ & _ & _ & Hall).
    apply Hall; reflexivity.
Defined.
